(** * rmm: python/setup.py

    A shallow embedding of the packaging script [python/setup.py] and the
    properties of its three stages: locating the CUDA toolkit
    (lines 16-31), assembling the Cython extension (lines 33-49) and
    handing the package over to setuptools (lines 51-75).

    The script is straight-line code that talks to its surroundings:
    the process environment, the executable search path, the file
    system, the Python installation, Cython and setuptools.  Each of
    these calls is an oracle of a [World]; a computation is a function
    from the world to an outcome (a value or a raised exception)
    together with the list of external calls it made, in order. *)

From Stdlib Require Import String Ascii List Bool ZArith Lia.
Import ListNotations.

Local Open Scope list_scope.
Local Open Scope string_scope.

(* ================================================================= *)
(** ** Python strings and [posixpath] *)

Module Py.

(** [s.rfind(c)] for a one-character [c]: the highest index of [c] in
    [s], or [-1]. *)
Fixpoint rfind (c : ascii) (s : string) : Z :=
  match s with
  | EmptyString => (-1)%Z
  | String a s' =>
      let r := rfind c s' in
      if (0 <=? r)%Z then (r + 1)%Z
      else if Ascii.eqb a c then 0%Z else (-1)%Z
  end.

(** [s.rstrip(c)]: [s] without its trailing run of [c]. *)
Fixpoint rstrip (c : ascii) (s : string) : string :=
  match s with
  | EmptyString => EmptyString
  | String a s' =>
      match rstrip c s' with
      | EmptyString => if Ascii.eqb a c then EmptyString else String a EmptyString
      | r => String a r
      end
  end.

(** [c * n] *)
Fixpoint repeat_char (c : ascii) (n : nat) : string :=
  match n with
  | O => EmptyString
  | S n' => String c (repeat_char c n')
  end.

(** [s.startswith(c)] and [s.endswith(c)] for a one-character [c]. *)
Definition startswith (s : string) (c : ascii) : bool :=
  match s with
  | EmptyString => false
  | String a _ => Ascii.eqb a c
  end.

Fixpoint endswith (s : string) (c : ascii) : bool :=
  match s with
  | EmptyString => false
  | String a EmptyString => Ascii.eqb a c
  | String _ s' => endswith s' c
  end.

(** [sub in s] *)
Fixpoint contains (sub s : string) : bool :=
  prefix sub s ||
  match s with
  | EmptyString => false
  | String _ s' => contains sub s'
  end.

(** Truth value of a string: only the empty string is false. *)
Definition truthy (s : string) : bool := negb (s =? "").

Definition sep : ascii := "/"%char.

(** [posixpath.dirname]:
<<
    i = p.rfind(sep) + 1
    head = p[:i]
    if head and head != sep*len(head):
        head = head.rstrip(sep)
    return head
>> *)
Definition dirname (p : string) : string :=
  let i := (rfind sep p + 1)%Z in
  let head := substring 0 (Z.to_nat i) p in
  if truthy head && negb (head =? repeat_char sep (String.length head))
  then rstrip sep head
  else head.

(** [posixpath.join(a, b)] with one component [b]:
<<
    if b.startswith(sep):  path = b
    elif not path or path.endswith(sep):  path += b
    else:  path += sep + b
>> *)
Definition join (a b : string) : string :=
  if startswith b sep then b
  else if negb (truthy a) || endswith a sep then a ++ b
  else a ++ String sep b.

End Py.

(* ================================================================= *)
(** ** Exceptions, build records and the world *)

(** The exception classes that can leave the script: [OSError] is the
    one the script raises itself; the other two come from the build
    backend (Cython's [CompileError], distutils' [DistutilsError]). *)
Inductive ExcType : Type :=
| OSError
| CompileError
| DistutilsError.

Record PyExc : Type := mkExc {
  exc_type : ExcType;
  exc_msg  : string
}.

(** [setuptools.extension.Extension], with the keywords the script
    passes. *)
Record Extension : Type := mkExtension {
  ext_name           : string;
  sources            : list string;
  include_dirs       : list string;
  library_dirs       : list string;
  libraries          : list string;
  language           : string;
  extra_compile_args : list string
}.

(** The keyword arguments of the [setup(...)] call. *)
Record SetupArgs : Type := mkSetupArgs {
  name             : string;
  version          : string;
  description      : string;
  url              : string;
  author           : string;
  license          : string;
  classifiers      : list string;
  setup_requires   : list string;
  ext_modules      : list Extension;
  packages         : list string;
  package_data     : list (string * list string);
  cmdclass         : list (string * string);
  kw_install_requires : list string;
  zip_safe         : bool
}.

(** What the script can observe of its surroundings.  A lookup that
    can come back empty returns an [option]; a backend call returns
    its value or the exception it raises. *)
Record World : Type := mkWorld {
  os_environ         : string -> option string;   (* os.environ *)
  shutil_which       : string -> option string;   (* shutil.which *)
  os_path_isdir      : string -> bool;            (* os.path.isdir *)
  sysconfig_get_path : string -> string;          (* sysconfig.get_path *)
  get_python_lib     : string;                    (* distutils.sysconfig.get_python_lib() *)
  sys_prefix         : string;                    (* os.sys.prefix *)
  cythonize          : list Extension -> PyExc + list Extension;
  find_packages      : list string -> list string;
  versioneer_get_cmdclass : list (string * string);
  setuptools_setup   : SetupArgs -> option PyExc
}.

(** The external calls, as they appear in a run's trace. *)
Inductive Event : Type :=
| EvEnvironGet (key : string)
| EvWhich (cmd : string)
| EvIsDir (path : string)
| EvSysconfigGetPath (key : string)
| EvGetPythonLib
| EvCythonize (exts : list Extension)
| EvFindPackages (include : list string)
| EvGetCmdclass
| EvSetup (args : SetupArgs).

(* ================================================================= *)
(** ** The monad of script computations *)

Inductive Outcome (A : Type) : Type :=
| Return (a : A)
| Raise (e : PyExc).
Arguments Return {A} a.
Arguments Raise {A} e.

Definition M (A : Type) : Type := World -> Outcome A * list Event.

Definition ret {A} (a : A) : M A := fun _ => (Return a, []).

Definition bind {A B} (m : M A) (k : A -> M B) : M B :=
  fun w =>
    match m w with
    | (Return a, t1) => let (r, t2) := k a w in (r, (t1 ++ t2)%list)
    | (Raise e, t1)  => (Raise e, t1)
    end.

Definition raise {A} (e : PyExc) : M A := fun _ => (Raise e, []).

(** An external call: one event, and the world's answer. *)
Definition call {A} (ev : Event) (f : World -> A) : M A :=
  fun w => (Return (f w), [ev]).

(** A read of an attribute of the surroundings: no call, no event. *)
Definition read {A} (f : World -> A) : M A :=
  fun w => (Return (f w), []).

(** An external call that may raise. *)
Definition call_exc {A} (ev : Event) (f : World -> PyExc + A) : M A :=
  fun w => match f w with
           | inr a => (Return a, [ev])
           | inl e => (Raise e, [ev])
           end.

Notation "x <- m ;; k" := (bind m (fun x => k))
  (at level 61, m at next level, right associativity).

Definition outcome {A} (m : M A) (w : World) : Outcome A := fst (m w).
Definition trace {A} (m : M A) (w : World) : list Event := snd (m w).

(* ================================================================= *)
(** ** Lines 13-31: locating the toolkit *)

Definition install_requires : list string := ["numba"; "cython"].
Definition cython_files : list string := ["rmm/_lib/**/*.pyx"].

(** The message of the [OSError] of lines 20-25 (adjacent literals are
    concatenated by the Python parser). *)
Definition not_found_msg : string :=
  "Could not locate CUDA. " ++
  "Please set the environment variable " ++
  "CUDA_HOME to the path to the CUDA installation " ++
  "and try again.".

(** The f-string of line 29. *)
Definition invalid_msg (cuda_home : string) : string :=
  "Invalid CUDA_HOME: directory does not exist: " ++ cuda_home.

(** [os.environ.get(key, False)]: [None] stands for the default
    [False]. *)
Definition environ_get (key : string) : M (option string) :=
  call (EvEnvironGet key) (fun w => os_environ w key).

(** [not v] for a value that is [False] or a string. *)
Definition py_not (v : option string) : bool :=
  match v with
  | None => true
  | Some s => negb (Py.truthy s)
  end.

Definition which (cmd : string) : M (option string) :=
  call (EvWhich cmd) (fun w => shutil_which w cmd).

Definition isdir (path : string) : M bool :=
  call (EvIsDir path) (fun w => os_path_isdir w path).

(** Lines 18-26: the fallback, taken when [not CUDA_HOME]. *)
Definition probe_cuda_gdb : M string :=
  path_to_cuda_gdb <- which "cuda-gdb" ;;
  match path_to_cuda_gdb with
  | None => raise (mkExc OSError not_found_msg)
  | Some p => ret (Py.dirname (Py.dirname p))
  end.

(** Lines 16-26: the value of [CUDA_HOME] before it is validated. *)
Definition resolve_CUDA_HOME : M string :=
  v <- environ_get "CUDA_HOME" ;;
  match v with
  | None => probe_cuda_gdb
  | Some s => if py_not v then probe_cuda_gdb else ret s
  end.

(** Lines 16-29: [CUDA_HOME] once the script is past the directory
    check. *)
Definition CUDA_HOME : M string :=
  home <- resolve_CUDA_HOME ;;
  ok <- isdir home ;;
  if negb ok then raise (mkExc OSError (invalid_msg home))
  else ret home.

(** Line 31. *)
Definition cuda_include_dir (home : string) : string :=
  Py.join home "include".

(* ================================================================= *)
(** ** Lines 33-49: the extension *)

(** The three include directories of the project itself. *)
Definition project_include_dirs : list string :=
  ["../include/rmm"; "../include"; "../build/include"].

(** Lines 33-49.  The keyword arguments are evaluated in the order
    they are written: [sysconfig.get_path] first, then
    [get_python_lib()], then the read of [os.sys.prefix]. *)
Definition extensions (cuda_include_dir : string) : M (list Extension) :=
  py_include <- call (EvSysconfigGetPath "include")
                     (fun w => sysconfig_get_path w "include") ;;
  py_lib <- call EvGetPythonLib get_python_lib ;;
  py_prefix <- read sys_prefix ;;
  ret [ {| ext_name := "*";
           sources := cython_files;
           include_dirs :=
             [ "../include/rmm";
               "../include";
               "../build/include";
               Py.dirname py_include;
               cuda_include_dir ];
           library_dirs := [ py_lib; Py.join py_prefix "lib" ];
           libraries := ["rmm"];
           language := "c++";
           extra_compile_args := ["-std=c++14"] |} ].

(* ================================================================= *)
(** ** Lines 51-75: the [setup] call *)

Definition setup_args (ext_modules_ packages_ : _) (cmdclass_ : _) : SetupArgs :=
  {| name := "rmm";
     version := "0.14.0";
     description := "rmm - RAPIDS Memory Manager";
     url := "https://github.com/rapidsai/rmm";
     author := "NVIDIA Corporation";
     license := "Apache 2.0";
     classifiers :=
       [ "Intended Audience :: Developers";
         "Topic :: Database";
         "Topic :: Scientific/Engineering";
         "License :: OSI Approved :: Apache Software License";
         "Programming Language :: Python";
         "Programming Language :: Python :: 3.6";
         "Programming Language :: Python :: 3.7" ];
     setup_requires := ["cython"];
     ext_modules := ext_modules_;
     packages := packages_;
     package_data := [ ("rmm._lib", ["*.pxd"]); ("rmm._lib.includes", ["*.pxd"]) ];
     cmdclass := cmdclass_;
     kw_install_requires := install_requires;
     zip_safe := false |}.

(** Lines 51-75: the arguments are evaluated left to right
    ([cythonize], [find_packages], [versioneer.get_cmdclass]), then
    [setup] is called. *)
Definition setup (exts : list Extension) : M unit :=
  mods <- call_exc (EvCythonize exts) (fun w => cythonize w exts) ;;
  pkgs <- call (EvFindPackages ["rmm"; "rmm.*"])
               (fun w => find_packages w ["rmm"; "rmm.*"]) ;;
  cc <- call EvGetCmdclass versioneer_get_cmdclass ;;
  let args := setup_args mods pkgs cc in
  call_exc (EvSetup args)
           (fun w => match setuptools_setup w args with
                     | Some e => inl e
                     | None => inr tt
                     end).

(** The whole script, top to bottom. *)
Definition script : M unit :=
  home <- CUDA_HOME ;;
  exts <- extensions (cuda_include_dir home) ;;
  setup exts.

(** An event of the build backend: cythonization or the [setup] call,
    the only places a compiler can be started from. *)
Definition is_backend_event (ev : Event) : bool :=
  match ev with
  | EvCythonize _ | EvSetup _ => true
  | _ => false
  end.

(** An event of the locator: a look at the environment, the search
    path or the file system. *)
Definition is_locator_event (ev : Event) : bool :=
  match ev with
  | EvEnvironGet _ | EvWhich _ | EvIsDir _ => true
  | _ => false
  end.

Definition is_which_event (ev : Event) : bool :=
  match ev with
  | EvWhich _ => true
  | _ => false
  end.

(* ================================================================= *)
(** ** Vocabulary of the specification *)

(** The two fatal errors of the locator: both are [OSError]s, told
    apart by their text. *)
Definition ToolkitNotFound : PyExc := mkExc OSError not_found_msg.
Definition ToolkitPathInvalid (home : string) : PyExc :=
  mkExc OSError (invalid_msg home).

(** The invariant the specification asks of a toolkit path: it is a
    directory, and so is its [include] entry. *)
Definition ToolkitPath_invariant (w : World) (home : string) : Prop :=
  os_path_isdir w home = true /\
  os_path_isdir w (cuda_include_dir home) = true.

(** The three ways the locator can end. *)
Inductive locator_run (w : World) : Outcome string * list Event -> Prop :=
| run_found (home : string) (t : list Event) :
    resolve_CUDA_HOME w = (Return home, t) ->
    os_path_isdir w home = true ->
    locator_run w (Return home, (t ++ [EvIsDir home])%list)
| run_invalid (home : string) (t : list Event) :
    resolve_CUDA_HOME w = (Return home, t) ->
    os_path_isdir w home = false ->
    locator_run w (Raise (ToolkitPathInvalid home), (t ++ [EvIsDir home])%list)
| run_not_found (t : list Event) :
    resolve_CUDA_HOME w = (Raise ToolkitNotFound, t) ->
    locator_run w (Raise ToolkitNotFound, t).

(** The world with [CUDA_HOME] taken out of the environment. *)
Definition unset_CUDA_HOME (w : World) : World :=
  {| os_environ := fun k => if k =? "CUDA_HOME" then None else os_environ w k;
     shutil_which := shutil_which w;
     os_path_isdir := os_path_isdir w;
     sysconfig_get_path := sysconfig_get_path w;
     get_python_lib := get_python_lib w;
     sys_prefix := sys_prefix w;
     cythonize := cythonize w;
     find_packages := find_packages w;
     versioneer_get_cmdclass := versioneer_get_cmdclass w;
     setuptools_setup := setuptools_setup w |}.

(** Evaluating lines 33-49 twice in a row. *)
Definition extensions_twice (cuda_include_dir : string)
  : M (list Extension * list Extension) :=
  a <- extensions cuda_include_dir ;;
  b <- extensions cuda_include_dir ;;
  ret (a, b).

(* ----------------------------------------------------------------- *)
(** *** Sample worlds *)

(** A machine with a Python 3.7 under [/usr], described by the value
    of [CUDA_HOME], the place of [cuda-gdb] on the search path and the
    directories that exist. *)
Definition sample_world (cuda_home gdb : option string) (dirs : list string)
  : World :=
  {| os_environ := fun k => if k =? "CUDA_HOME" then cuda_home else None;
     shutil_which := fun cmd => if cmd =? "cuda-gdb" then gdb else None;
     os_path_isdir := fun p => existsb (String.eqb p) dirs;
     sysconfig_get_path := fun _ => "/usr/include/python3.7m";
     get_python_lib := "/usr/lib/python3.7/site-packages";
     sys_prefix := "/usr";
     cythonize := fun exts => inr exts;
     find_packages := fun _ => ["rmm"; "rmm._lib"];
     versioneer_get_cmdclass := [("version", "cmd_version")];
     setuptools_setup := fun _ => None |}.

(** [CUDA_HOME=/opt/cuda], a complete toolkit. *)
Definition w_override : World :=
  sample_world (Some "/opt/cuda") None ["/opt/cuda"; "/opt/cuda/include"].

(** [CUDA_HOME=/opt/cuda], a directory without [include]. *)
Definition w_no_include : World :=
  sample_world (Some "/opt/cuda") None ["/opt/cuda"].

(** No [CUDA_HOME], [cuda-gdb] under [/usr/local/cuda]. *)
Definition w_gdb : World :=
  sample_world None (Some "/usr/local/cuda/bin/cuda-gdb")
               ["/usr/local/cuda"; "/usr/local/cuda/include"].

(** The same search path, with an empty [CUDA_HOME]. *)
Definition w_empty_override : World :=
  sample_world (Some "") (Some "/usr/local/cuda/bin/cuda-gdb")
               ["/usr/local/cuda"; "/usr/local/cuda/include"].

(** Neither [CUDA_HOME] nor [cuda-gdb]. *)
Definition w_nothing : World := sample_world None None [].

(** [CUDA_HOME] names a directory that is not there. *)
Definition w_missing : World := sample_world (Some "/opt/cuda") None [].

(** [cuda-gdb] found through a relative search-path entry. *)
Definition w_relative : World := sample_world None (Some "./cuda-gdb") ["."].

(* ----------------------------------------------------------------- *)
(** *** Sample worlds with a failing backend *)

(** The same surroundings with another [cythonize] and [setup]. *)
Definition with_backend (w : World)
    (cy : list Extension -> PyExc + list Extension)
    (st : SetupArgs -> option PyExc) : World :=
  {| os_environ := os_environ w;
     shutil_which := shutil_which w;
     os_path_isdir := os_path_isdir w;
     sysconfig_get_path := sysconfig_get_path w;
     get_python_lib := get_python_lib w;
     sys_prefix := sys_prefix w;
     cythonize := cy;
     find_packages := find_packages w;
     versioneer_get_cmdclass := versioneer_get_cmdclass w;
     setuptools_setup := st |}.

Definition pyx_error : PyExc := mkExc CompileError "rmm/_lib/lib.pyx".
Definition link_error : PyExc := mkExc DistutilsError "command 'g++' failed".

(** A complete toolkit, but Cython rejects a source. *)
Definition w_cython_fails : World :=
  with_backend w_override (fun _ => inl pyx_error) (fun _ => None).

(** A complete toolkit, but the compiler run of [setup] fails. *)
Definition w_setup_fails : World :=
  with_backend w_override (fun exts => inr exts) (fun _ => Some link_error).

(** [CUDA_HOME] names a missing directory while [cuda-gdb] sits in a
    complete toolkit. *)
Definition w_bad_override : World :=
  sample_world (Some "/opt/cuda") (Some "/usr/local/cuda/bin/cuda-gdb")
               ["/usr/local/cuda"; "/usr/local/cuda/include"].



(** An empty [CUDA_HOME] and no [cuda-gdb]. *)
Definition w_empty_nothing : World := sample_world (Some "") None [].

(** [cuda-gdb] found through the relative search-path entry [bin]. *)
Definition w_relative_bin : World :=
  sample_world None (Some "bin/cuda-gdb") ["bin"].

(** [w_gdb] with more in the environment and on the search path. *)
Definition w_gdb_busy : World :=
  {| os_environ := fun k => if k =? "CUDA_HOME" then None else Some "x";
     shutil_which := fun cmd => if cmd =? "cuda-gdb"
                                then Some "/usr/local/cuda/bin/cuda-gdb"
                                else Some ("/usr/bin/" ++ cmd);
     os_path_isdir := os_path_isdir w_gdb;
     sysconfig_get_path := fun _ => "/opt/python/include";
     get_python_lib := "/opt/python/lib";
     sys_prefix := "/opt/python";
     cythonize := fun _ => inl pyx_error;
     find_packages := fun _ => [];
     versioneer_get_cmdclass := [];
     setuptools_setup := fun _ => None |}.

(** The extension list of [w_override]. *)
Definition sample_exts : list Extension :=
  match outcome (extensions "/opt/cuda/include") w_override with
  | Return exts => exts
  | Raise _ => []
  end.

(** The arguments the script hands to [setup] in a world, once
    [cythonize] has returned [mods]. *)
Definition script_setup_args (w : World) (mods : list Extension) : SetupArgs :=
  setup_args mods (find_packages w ["rmm"; "rmm.*"]) (versioneer_get_cmdclass w).

(* ================================================================= *)
(** ** Facts about strings and paths *)

Section StringFacts.

Variable c : ascii.

Lemma append_empty_r (s : string) : s ++ "" = s.
Proof. induction s as [|a s IH]; simpl; [reflexivity | now rewrite IH]. Qed.

Lemma append_assoc (s t u : string) : (s ++ t) ++ u = s ++ (t ++ u).
Proof. induction s as [|a s IH]; simpl; [reflexivity | now rewrite IH]. Qed.

Lemma prefix_app (s t : string) : prefix s (s ++ t) = true.
Proof.
  induction s as [|a s IH]; simpl.
  - now destruct t.
  - destruct (ascii_dec a a) as [_|n]; [exact IH | now elim n].
Qed.

Lemma contains_prefix (s u : string) :
  prefix s u = true -> Py.contains s u = true.
Proof. intros H. destruct u; cbn [Py.contains]; rewrite H; reflexivity. Qed.

Lemma contains_app (pre s post : string) :
  Py.contains s (pre ++ s ++ post) = true.
Proof.
  induction pre as [|a pre IH].
  - change ("" ++ s ++ post) with (s ++ post). apply contains_prefix, prefix_app.
  - cbn [append Py.contains]. rewrite IH. apply orb_true_r.
Qed.

(** The last separator of [d ++ c :: t] is the one written out, as
    long as [t] has none. *)
Lemma rfind_app (d t : string) :
  Py.rfind c t = (-1)%Z ->
  Py.rfind c (d ++ String c t) = Z.of_nat (String.length d).
Proof.
  intros Ht. induction d as [|a d IH].
  - simpl. rewrite Ht. simpl. now rewrite Ascii.eqb_refl.
  - cbn [append Py.rfind String.length]. rewrite IH.
    destruct (0 <=? Z.of_nat (String.length d))%Z eqn:E.
    + lia.
    + apply Z.leb_gt in E. lia.
Qed.

Lemma substring_app (d t : string) :
  substring 0 (String.length d) (d ++ t) = d.
Proof.
  induction d as [|a d IH]; simpl.
  - now destruct t.
  - now rewrite IH.
Qed.

Lemma endswith_cons (a : ascii) (s : string) :
  s <> "" -> Py.endswith (String a s) c = Py.endswith s c.
Proof. destruct s; [congruence | reflexivity]. Qed.


(** Stripping the separator that was just appended gives the string
    back, when the string did not end in one. *)
Lemma rstrip_app (d : string) :
  Py.endswith d c = false -> Py.rstrip c (d ++ String c "") = d.
Proof.
  induction d as [|a d IH]; intros Hd.
  - simpl. now rewrite Ascii.eqb_refl.
  - cbn [append Py.rstrip]. destruct d as [|b d].
    + simpl in *. rewrite Ascii.eqb_refl, Hd. reflexivity.
    + rewrite IH by exact Hd. reflexivity.
Qed.

(** A run of [c] ends in [c]. *)
Lemma repeat_char_endswith (d : string) (n : nat) :
  d ++ String c "" = Py.repeat_char c n ->
  d = "" \/ Py.endswith d c = true.
Proof.
  revert n. induction d as [|a d IH]; intros n E; [now left | right].
  destruct n as [|n]; [discriminate|].
  cbn [append Py.repeat_char] in E. injection E as Ea Ed.
  destruct (IH _ Ed) as [->|H].
  - simpl. subst a. apply Ascii.eqb_refl.
  - destruct d; [discriminate | exact H].
Qed.

End StringFacts.

(** [dirname] takes off the last component: for a directory [d] written
    without a trailing separator and a component [t] without separator,
    the parent of [d/t] is [d]. *)
Lemma dirname_app (d t : string) :
  d <> "" ->
  Py.endswith d Py.sep = false ->
  Py.rfind Py.sep t = (-1)%Z ->
  Py.dirname (d ++ String Py.sep t) = d.
Proof.
  intros Hne Hend Ht. unfold Py.dirname.
  rewrite rfind_app by exact Ht.
  replace (Z.to_nat (Z.of_nat (String.length d) + 1))
    with (String.length (d ++ String Py.sep "")).
  2:{ clear. induction d; simpl; [reflexivity|]. rewrite IHd. lia. }
  replace (d ++ String Py.sep t) with ((d ++ String Py.sep "") ++ t)
    by (rewrite append_assoc; reflexivity).
  rewrite substring_app.
  assert (Htruthy : Py.truthy (d ++ String Py.sep "") = true)
    by (destruct d; reflexivity).
  assert (Hrun : (d ++ String Py.sep "" =?
                  Py.repeat_char Py.sep (String.length (d ++ String Py.sep "")))
                 = false).
  { apply String.eqb_neq. intros E.
    destruct (repeat_char_endswith _ _ _ E) as [E0|E1]; congruence. }
  rewrite Htruthy, Hrun. simpl. apply rstrip_app, Hend.
Qed.

(* ================================================================= *)
(** ** Sample runs *)

Example dirname_cuda_gdb :
  Py.dirname "/usr/local/cuda/bin/cuda-gdb" = "/usr/local/cuda/bin".
Proof. reflexivity. Qed.

Example dirname_top_level : Py.dirname (Py.dirname "/bin/cuda-gdb") = "/".
Proof. reflexivity. Qed.

Example dirname_double_sep :
  Py.dirname (Py.dirname "/opt/cuda//bin/cuda-gdb") = "/opt/cuda".
Proof. reflexivity. Qed.

Example dirname_relative : Py.dirname (Py.dirname "./cuda-gdb") = "".
Proof. reflexivity. Qed.

Example join_include : Py.join "/opt/cuda" "include" = "/opt/cuda/include".
Proof. reflexivity. Qed.

Example join_trailing_sep : Py.join "/opt/cuda/" "include" = "/opt/cuda/include".
Proof. reflexivity. Qed.

Example run_gdb :
  CUDA_HOME w_gdb =
    (Return "/usr/local/cuda",
     [EvEnvironGet "CUDA_HOME"; EvWhich "cuda-gdb"; EvIsDir "/usr/local/cuda"]).
Proof. reflexivity. Qed.

(** A [cuda-gdb] found through the search-path entry [.] has no
    grandparent to speak of: the derived path is empty and fails the
    directory check. *)
Example run_relative :
  CUDA_HOME w_relative =
    (Raise (ToolkitPathInvalid ""),
     [EvEnvironGet "CUDA_HOME"; EvWhich "cuda-gdb"; EvIsDir ""]).
Proof. reflexivity. Qed.

Example run_script_override :
  outcome script w_override = Return tt /\
  map is_backend_event (trace script w_override) =
    [false; false; false; false; true; false; false; true].
Proof. split; reflexivity. Qed.

(* ================================================================= *)
(** ** The locator, case by case *)

Ltac unfold_locator :=
  unfold CUDA_HOME, resolve_CUDA_HOME, probe_cuda_gdb, environ_get, which,
    isdir, bind, call, ret, raise, ToolkitNotFound, ToolkitPathInvalid.

Lemma py_not_false (s : string) : s <> "" -> py_not (Some s) = false.
Proof.
  intros H. unfold py_not, Py.truthy.
  apply String.eqb_neq in H. now rewrite H.
Qed.

(** Lines 16-17 with a usable override: the value is taken as it is. *)
Lemma resolve_override (w : World) (s : string) :
  os_environ w "CUDA_HOME" = Some s -> s <> "" ->
  resolve_CUDA_HOME w = (Return s, [EvEnvironGet "CUDA_HOME"]).
Proof.
  intros He Hs. unfold_locator. rewrite He, (py_not_false s Hs). reflexivity.
Qed.

(** Lines 17-26 without one: the search path decides. *)
Lemma resolve_probe (w : World) :
  py_not (os_environ w "CUDA_HOME") = true ->
  resolve_CUDA_HOME w =
    (match shutil_which w "cuda-gdb" with
     | None => Raise ToolkitNotFound
     | Some p => Return (Py.dirname (Py.dirname p))
     end,
     [EvEnvironGet "CUDA_HOME"; EvWhich "cuda-gdb"]).
Proof.
  intros Hn. unfold_locator.
  destruct (os_environ w "CUDA_HOME") as [s|]; [rewrite Hn|];
    destruct (shutil_which w "cuda-gdb"); reflexivity.
Qed.

(** Lines 28-29 after a resolved path. *)
Lemma CUDA_HOME_validate (w : World) (home : string) (t : list Event) :
  resolve_CUDA_HOME w = (Return home, t) ->
  CUDA_HOME w =
    (if os_path_isdir w home then Return home
     else Raise (ToolkitPathInvalid home),
     (t ++ [EvIsDir home])%list).
Proof.
  intros Hr. unfold CUDA_HOME, bind at 1. rewrite Hr.
  unfold isdir, bind, call, ret, raise, ToolkitPathInvalid.
  destruct (os_path_isdir w home); reflexivity.
Qed.

(** A failure of lines 16-26 ends the locator there. *)
Lemma CUDA_HOME_unresolved (w : World) (e : PyExc) (t : list Event) :
  resolve_CUDA_HOME w = (Raise e, t) -> CUDA_HOME w = (Raise e, t).
Proof. intros Hr. unfold CUDA_HOME, bind at 1. now rewrite Hr. Qed.

Lemma resolve_cases (w : World) :
  (exists home,
      resolve_CUDA_HOME w = (Return home, [EvEnvironGet "CUDA_HOME"])) \/
  (exists home,
      resolve_CUDA_HOME w =
        (Return home, [EvEnvironGet "CUDA_HOME"; EvWhich "cuda-gdb"])) \/
  resolve_CUDA_HOME w =
    (Raise ToolkitNotFound, [EvEnvironGet "CUDA_HOME"; EvWhich "cuda-gdb"]).
Proof.
  destruct (py_not (os_environ w "CUDA_HOME")) eqn:Hn.
  - rewrite (resolve_probe w Hn).
    destruct (shutil_which w "cuda-gdb"); eauto.
  - left. destruct (os_environ w "CUDA_HOME") as [s|] eqn:He; [|discriminate].
    exists s. apply resolve_override; [exact He|].
    intros ->. discriminate.
Qed.

Lemma CUDA_HOME_run (w : World) : locator_run w (CUDA_HOME w).
Proof.
  destruct (resolve_cases w) as [[home Hr]|[[home Hr]|Hr]].
  1,2: rewrite (CUDA_HOME_validate w home _ Hr);
       destruct (os_path_isdir w home) eqn:Hd; econstructor; eassumption.
  rewrite (CUDA_HOME_unresolved w _ _ Hr). constructor. exact Hr.
Qed.

(** What a returning locator has done: the directory check came out
    true, after a look at the environment and maybe one at the search
    path. *)
Lemma CUDA_HOME_returned (w : World) (home : string) :
  outcome CUDA_HOME w = Return home ->
  os_path_isdir w home = true /\
  exists t,
    CUDA_HOME w = (Return home, (t ++ [EvIsDir home])%list) /\
    (t = [EvEnvironGet "CUDA_HOME"] \/
     t = [EvEnvironGet "CUDA_HOME"; EvWhich "cuda-gdb"]).
Proof.
  unfold outcome. intros Hout.
  destruct (resolve_cases w) as [[h Hr]|[[h Hr]|Hr]].
  1,2: rewrite (CUDA_HOME_validate w h _ Hr) in *; cbn [fst] in Hout;
       destruct (os_path_isdir w h) eqn:Hd; [|discriminate];
       injection Hout as ->; split; [exact Hd|]; eauto.
  rewrite (CUDA_HOME_unresolved w _ _ Hr) in Hout. discriminate.
Qed.

(** The locator talks to the environment, the search path and the file
    system, never to the build backend. *)
Lemma CUDA_HOME_no_backend (w : World) :
  existsb is_backend_event (trace CUDA_HOME w) = false.
Proof.
  unfold trace.
  destruct (resolve_cases w) as [[home Hr]|[[home Hr]|Hr]].
  1,2: rewrite (CUDA_HOME_validate w home _ Hr); reflexivity.
  rewrite (CUDA_HOME_unresolved w _ _ Hr). reflexivity.
Qed.

(* ================================================================= *)
(** ** The extension and the script *)

(** Lines 33-49 always produce one extension, after two calls into
    the Python installation. *)
Lemma extensions_run (w : World) (inc : string) :
  extensions inc w =
    (Return
       [ {| ext_name := "*";
            sources := ["rmm/_lib/**/*.pyx"];
            include_dirs :=
              (project_include_dirs ++
               [Py.dirname (sysconfig_get_path w "include"); inc])%list;
            library_dirs := [get_python_lib w; Py.join (sys_prefix w) "lib"];
            libraries := ["rmm"];
            language := "c++";
            extra_compile_args := ["-std=c++14"] |} ],
     [EvSysconfigGetPath "include"; EvGetPythonLib]).
Proof. reflexivity. Qed.

(** A failed locator is the end of the script. *)
Lemma script_locator_failed (w : World) (e : PyExc) (t : list Event) :
  CUDA_HOME w = (Raise e, t) -> script w = (Raise e, t).
Proof. intros H. unfold script, bind at 1. now rewrite H. Qed.

(** After a successful locator the script goes on to the extension and
    to [cythonize], and never comes back to the environment, the
    search path or the file system. *)
Lemma script_locator_ok (w : World) (home : string) (t : list Event) :
  CUDA_HOME w = (Return home, t) ->
  exists exts rest,
    outcome (extensions (cuda_include_dir home)) w = Return exts /\
    trace script w =
      (t ++ [EvSysconfigGetPath "include"; EvGetPythonLib; EvCythonize exts]
         ++ rest)%list /\
    existsb is_locator_event rest = false.
Proof.
  intros H. unfold script, trace, outcome, bind at 1. rewrite H.
  unfold bind at 1. rewrite extensions_run. cbn [fst].
  eexists. unfold setup, bind, call, call_exc.
  destruct (cythonize w _) as [e|mods].
  - exists []. repeat split.
  - destruct (setuptools_setup w _); eexists; repeat split.
Qed.

(** A trace without locator events has no search-path probe. *)
Lemma which_is_locator_event (t : list Event) :
  existsb is_locator_event t = false -> existsb is_which_event t = false.
Proof.
  induction t as [|ev t IH]; [reflexivity|].
  cbn [existsb]. intros H. apply orb_false_iff in H as [Hev Ht].
  rewrite (IH Ht). destruct ev; try reflexivity; discriminate.
Qed.

(* ================================================================= *)
(** ** The locator: override, fallback and failures *)

(** C1.  If [CUDA_HOME] is set to a non-empty string that names an
    existing directory, the locator returns exactly that string, after
    one look at the environment and one directory check; neither the
    locator nor the rest of the script probes the search path. *)
Theorem CUDA_HOME_override_trusted (w : World) (s : string) :
  os_environ w "CUDA_HOME" = Some s ->
  s <> "" ->
  os_path_isdir w s = true ->
  CUDA_HOME w = (Return s, [EvEnvironGet "CUDA_HOME"; EvIsDir s]) /\
  existsb is_which_event (trace CUDA_HOME w) = false /\
  existsb is_which_event (trace script w) = false.
Proof.
  intros He Hs Hd.
  assert (Hrun : CUDA_HOME w = (Return s, [EvEnvironGet "CUDA_HOME"; EvIsDir s])).
  { rewrite (CUDA_HOME_validate w s _ (resolve_override w s He Hs)), Hd.
    reflexivity. }
  split; [exact Hrun|]. split.
  - unfold trace. rewrite Hrun. reflexivity.
  - destruct (script_locator_ok w s _ Hrun) as (exts & rest & _ & Ht & Hrest).
    rewrite Ht. cbn [app existsb is_which_event orb].
    apply which_is_locator_event, Hrest.
Qed.

Lemma CUDA_HOME_override_trusted_witness :
  CUDA_HOME w_override =
    (Return "/opt/cuda", [EvEnvironGet "CUDA_HOME"; EvIsDir "/opt/cuda"]) /\
  existsb is_which_event (trace CUDA_HOME w_override) = false /\
  existsb is_which_event (trace script w_override) = false.
Proof.
  apply (CUDA_HOME_override_trusted w_override "/opt/cuda");
    [reflexivity | discriminate | reflexivity].
Defined.

(** C2.  If [CUDA_HOME] is absent and [cuda-gdb] is not on the search
    path, the locator raises an [OSError] whose message names
    [CUDA_HOME], and returns no toolkit path. *)
Theorem CUDA_HOME_not_found (w : World) :
  os_environ w "CUDA_HOME" = None ->
  shutil_which w "cuda-gdb" = None ->
  CUDA_HOME w =
    (Raise ToolkitNotFound, [EvEnvironGet "CUDA_HOME"; EvWhich "cuda-gdb"]) /\
  exc_type ToolkitNotFound = OSError /\
  Py.contains "CUDA_HOME" (exc_msg ToolkitNotFound) = true /\
  (forall home, outcome CUDA_HOME w <> Return home).
Proof.
  intros He Hw.
  assert (Hrun : CUDA_HOME w =
            (Raise ToolkitNotFound,
             [EvEnvironGet "CUDA_HOME"; EvWhich "cuda-gdb"])).
  { apply CUDA_HOME_unresolved. rewrite resolve_probe by now rewrite He.
    now rewrite Hw. }
  repeat split; [exact Hrun|].
  intros home. unfold outcome. rewrite Hrun. discriminate.
Qed.

Lemma CUDA_HOME_not_found_witness :
  CUDA_HOME w_nothing =
    (Raise ToolkitNotFound, [EvEnvironGet "CUDA_HOME"; EvWhich "cuda-gdb"]) /\
  exc_type ToolkitNotFound = OSError /\
  Py.contains "CUDA_HOME" (exc_msg ToolkitNotFound) = true /\
  (forall home, outcome CUDA_HOME w_nothing <> Return home).
Proof.
  apply (CUDA_HOME_not_found w_nothing); reflexivity.
Defined.




(** C4.  Whether the path comes from [CUDA_HOME] or from the place of
    [cuda-gdb]: if it is not an existing directory, the locator raises
    an [OSError] whose message contains that very path. *)
Theorem CUDA_HOME_invalid (w : World) (home : string) :
  (os_environ w "CUDA_HOME" = Some home /\ home <> "") \/
  (py_not (os_environ w "CUDA_HOME") = true /\
   exists p, shutil_which w "cuda-gdb" = Some p /\
             home = Py.dirname (Py.dirname p)) ->
  os_path_isdir w home = false ->
  outcome CUDA_HOME w = Raise (ToolkitPathInvalid home) /\
  exc_type (ToolkitPathInvalid home) = OSError /\
  exc_msg (ToolkitPathInvalid home) =
    "Invalid CUDA_HOME: directory does not exist: " ++ home /\
  Py.contains home (exc_msg (ToolkitPathInvalid home)) = true.
Proof.
  intros Hsrc Hd.
  assert (Hr : exists t, resolve_CUDA_HOME w = (Return home, t)).
  { destruct Hsrc as [[He Hs]|[Hn (p & Hw & ->)]].
    - eexists. apply resolve_override; assumption.
    - eexists. rewrite (resolve_probe w Hn), Hw. reflexivity. }
  destruct Hr as [t Hr]. repeat split.
  - unfold outcome. rewrite (CUDA_HOME_validate w home t Hr), Hd. reflexivity.
  - cbn [exc_msg ToolkitPathInvalid invalid_msg].
    rewrite <- (append_empty_r home) at 2. apply contains_app.
Qed.

Lemma CUDA_HOME_invalid_witness :
  outcome CUDA_HOME w_missing = Raise (ToolkitPathInvalid "/opt/cuda") /\
  exc_type (ToolkitPathInvalid "/opt/cuda") = OSError /\
  exc_msg (ToolkitPathInvalid "/opt/cuda") =
    "Invalid CUDA_HOME: directory does not exist: " ++ "/opt/cuda" /\
  Py.contains "/opt/cuda" (exc_msg (ToolkitPathInvalid "/opt/cuda")) = true.
Proof.
  apply (CUDA_HOME_invalid w_missing "/opt/cuda");
    [left; split; [reflexivity | discriminate] | reflexivity].
Defined.

(** C5.  A failed locator ends the script on the spot: the failure is
    one of the two locator errors, the script raises it unchanged with
    the locator's own trace, and that trace has neither a [cythonize]
    nor a [setup] call. *)
Theorem locator_failure_stops_script (w : World) (e : PyExc) :
  outcome CUDA_HOME w = Raise e ->
  (e = ToolkitNotFound \/ exists home, e = ToolkitPathInvalid home) /\
  script w = (Raise e, trace CUDA_HOME w) /\
  existsb is_backend_event (trace script w) = false.
Proof.
  intros Hout.
  assert (Hrun : CUDA_HOME w = (Raise e, trace CUDA_HOME w)).
  { unfold outcome, trace in *. destruct (CUDA_HOME w) as [o t].
    cbn [fst snd] in *. now subst o. }
  split; [|split].
  - pose proof (CUDA_HOME_run w) as Hcase. rewrite Hrun in Hcase.
    inversion Hcase; subst; eauto.
  - apply script_locator_failed, Hrun.
  - unfold trace at 1. rewrite (script_locator_failed w e _ Hrun).
    apply CUDA_HOME_no_backend.
Qed.

Lemma locator_failure_stops_script_witness :
  (ToolkitNotFound = ToolkitNotFound \/
   exists home, ToolkitNotFound = ToolkitPathInvalid home) /\
  script w_nothing = (Raise ToolkitNotFound, trace CUDA_HOME w_nothing) /\
  existsb is_backend_event (trace script w_nothing) = false.
Proof.
  apply (locator_failure_stops_script w_nothing ToolkitNotFound).
  reflexivity.
Defined.

(** The other side of the coin: once the locator has returned,
    [cythonize] is called. *)
Lemma script_reaches_backend (w : World) (home : string) :
  outcome CUDA_HOME w = Return home ->
  existsb is_backend_event (trace script w) = true.
Proof.
  intros Hout.
  assert (Hrun : CUDA_HOME w = (Return home, trace CUDA_HOME w)).
  { unfold outcome, trace in *. destruct (CUDA_HOME w) as [o t].
    cbn [fst snd] in *. now subst o. }
  destruct (script_locator_ok w home _ Hrun) as (exts & rest & _ & Ht & _).
  rewrite Ht, existsb_app. apply orb_true_iff. right. reflexivity.
Qed.

(* ================================================================= *)
(** ** The toolkit path and its [include] entry *)

Lemma length_append (s t : string) :
  String.length (s ++ t) = String.length s + String.length t.
Proof. induction s as [|a s IH]; simpl; [reflexivity | now rewrite IH]. Qed.

(** Joining [include] to a path always gives another path. *)
Lemma cuda_include_dir_neq (home : string) : cuda_include_dir home <> home.
Proof.
  unfold cuda_include_dir, Py.join. cbn [Py.startswith Ascii.eqb Py.sep].
  intros E. apply (f_equal String.length) in E. revert E.
  cbn [Ascii.eqb Bool.eqb].
  destruct (negb (Py.truthy home) || Py.endswith home Py.sep);
    rewrite length_append; cbn [String.length]; lia.
Qed.

(** The invariant as the specification words it does not hold of the
    script: with [CUDA_HOME=/opt/cuda] naming a directory that has no
    [include] entry, the locator accepts the path all the same. *)
Lemma include_dir_unchecked_counterexample :
  outcome CUDA_HOME w_no_include = Return "/opt/cuda" /\
  ~ ToolkitPath_invariant w_no_include "/opt/cuda".
Proof.
  split; [reflexivity|].
  intros [_ Hinc]. vm_compute in Hinc. discriminate.
Qed.

(** C6, amended.  Every toolkit path the locator accepts is an
    existing directory; the include path is that path joined with
    [include], it is the last include directory of the one extension
    handed to [cythonize], and the script never asks the file system
    about it. *)
Theorem CUDA_HOME_accepted_is_directory (w : World) (home : string) :
  outcome CUDA_HOME w = Return home ->
  os_path_isdir w home = true /\
  cuda_include_dir home = Py.join home "include" /\
  (exists ext,
      outcome (extensions (cuda_include_dir home)) w = Return [ext] /\
      last (include_dirs ext) "" = Py.join home "include" /\
      In (EvCythonize [ext]) (trace script w)) /\
  ~ In (EvIsDir (cuda_include_dir home)) (trace script w).
Proof.
  intros Hout.
  destruct (CUDA_HOME_returned w home Hout) as (Hd & t & Hrun & Hshape).
  destruct (script_locator_ok w home _ Hrun) as (exts & rest & Hex & Ht & Hrest).
  unfold outcome in Hex. rewrite extensions_run in Hex. cbn [fst] in Hex.
  injection Hex as <-.
  split; [exact Hd|]. split; [reflexivity|]. split.
  - eexists. split; [unfold outcome; rewrite extensions_run; reflexivity|].
    split; [reflexivity|].
    rewrite Ht. apply in_or_app. right. apply in_or_app. left.
    right. right. left. reflexivity.
  - rewrite Ht. intros Hin.
    apply in_app_or in Hin as [Hin|Hin].
    + apply in_app_or in Hin as [Hin|[Hin|[]]].
      * destruct Hshape as [-> | ->]; cbn [In] in Hin; intuition discriminate.
      * injection Hin as Hin. symmetry in Hin.
        exact (cuda_include_dir_neq home Hin).
    + apply in_app_or in Hin as [Hin|Hin].
      * cbn [In] in Hin. intuition discriminate.
      * clear - Hin Hrest. induction rest as [|ev rest IH]; [exact Hin|].
        cbn [existsb] in Hrest. apply orb_false_iff in Hrest as [Hev Hrest].
        destruct Hin as [->|Hin]; [discriminate | exact (IH Hrest Hin)].
Qed.

Lemma CUDA_HOME_accepted_is_directory_witness :
  os_path_isdir w_no_include "/opt/cuda" = true /\
  cuda_include_dir "/opt/cuda" = Py.join "/opt/cuda" "include" /\
  (exists ext,
      outcome (extensions (cuda_include_dir "/opt/cuda")) w_no_include
        = Return [ext] /\
      last (include_dirs ext) "" = Py.join "/opt/cuda" "include" /\
      In (EvCythonize [ext]) (trace script w_no_include)) /\
  ~ In (EvIsDir (cuda_include_dir "/opt/cuda")) (trace script w_no_include).
Proof.
  apply (CUDA_HOME_accepted_is_directory w_no_include "/opt/cuda").
  reflexivity.
Defined.

(* ================================================================= *)
(** ** The extension record *)

(** C7.  For a fixed toolkit include path, two worlds with the same
    project layout (the include path and the library path of the
    Python installation, and its prefix) get the same extension list,
    whatever else differs between them; and evaluating the assembly
    twice in a row gives that same list both times. *)
Theorem extensions_deterministic (w1 w2 : World) (inc : string) :
  sysconfig_get_path w1 "include" = sysconfig_get_path w2 "include" ->
  get_python_lib w1 = get_python_lib w2 ->
  sys_prefix w1 = sys_prefix w2 ->
  exists exts,
    outcome (extensions inc) w1 = Return exts /\
    outcome (extensions inc) w2 = Return exts /\
    outcome (extensions_twice inc) w1 = Return (exts, exts).
Proof.
  intros Hinc Hlib Hpre. eexists. split; [|split].
  - unfold outcome. rewrite extensions_run. reflexivity.
  - unfold outcome. rewrite extensions_run, <- Hinc, <- Hlib, <- Hpre.
    reflexivity.
  - unfold outcome, extensions_twice, bind. rewrite extensions_run.
    reflexivity.
Qed.

Lemma extensions_deterministic_witness :
  exists exts,
    outcome (extensions "/opt/cuda/include") w_override = Return exts /\
    outcome (extensions "/opt/cuda/include") w_nothing = Return exts /\
    outcome (extensions_twice "/opt/cuda/include") w_override
      = Return (exts, exts).
Proof.
  apply (extensions_deterministic w_override w_nothing "/opt/cuda/include");
    reflexivity.
Defined.

(** C8.  The one extension lists the project's own include
    directories first, then the include directory of the Python
    installation, then the toolkit's; and it carries the source glob,
    the library directories, the library name, the language and the
    compiler flag. *)
Theorem extensions_project_first (w : World) (inc : string) :
  exists ext,
    outcome (extensions inc) w = Return [ext] /\
    include_dirs ext =
      (["../include/rmm"; "../include"; "../build/include"] ++
       [Py.dirname (sysconfig_get_path w "include")] ++ [inc])%list /\
    ext_name ext = "*" /\
    sources ext = ["rmm/_lib/**/*.pyx"] /\
    library_dirs ext = [get_python_lib w; Py.join (sys_prefix w) "lib"] /\
    libraries ext = ["rmm"] /\
    language ext = "c++" /\
    extra_compile_args ext = ["-std=c++14"].
Proof.
  eexists. split.
  - unfold outcome. rewrite extensions_run. reflexivity.
  - repeat split.
Qed.

(* ================================================================= *)
(** ** Falsy overrides and the type of the failures *)

(** C9.  A [CUDA_HOME] that is set but empty (the one false value a
    string can have) is treated as an absent one: the locator and the
    whole script run exactly as they do with the variable removed,
    and the locator's second step is the search-path probe. *)
Theorem empty_override_is_absent (w : World) :
  py_not (os_environ w "CUDA_HOME") = true ->
  CUDA_HOME w = CUDA_HOME (unset_CUDA_HOME w) /\
  script w = script (unset_CUDA_HOME w) /\
  exists t,
    trace CUDA_HOME w = EvEnvironGet "CUDA_HOME" :: EvWhich "cuda-gdb" :: t.
Proof.
  intros Hn.
  assert (Hres : resolve_CUDA_HOME w = resolve_CUDA_HOME (unset_CUDA_HOME w)).
  { rewrite (resolve_probe w Hn).
    rewrite (resolve_probe (unset_CUDA_HOME w)) by reflexivity.
    reflexivity. }
  assert (Hloc : CUDA_HOME w = CUDA_HOME (unset_CUDA_HOME w)).
  { unfold CUDA_HOME, bind at 1 3. rewrite Hres.
    destruct (resolve_CUDA_HOME (unset_CUDA_HOME w)) as [[home|e] t];
      [|reflexivity].
    unfold bind, isdir, call, raise, ret. cbn [os_path_isdir unset_CUDA_HOME].
    destruct (os_path_isdir w home); reflexivity. }
  split; [exact Hloc|]. split.
  - unfold script, bind at 1 3. rewrite Hloc.
    destruct (CUDA_HOME (unset_CUDA_HOME w)) as [[home|e] t]; reflexivity.
  - unfold trace, CUDA_HOME, bind at 1. rewrite (resolve_probe w Hn).
    destruct (shutil_which w "cuda-gdb") as [p|].
    + unfold bind, isdir, call, raise, ret.
      destruct (negb (os_path_isdir w _)); eexists; reflexivity.
    + eexists; reflexivity.
Qed.

Lemma empty_override_is_absent_witness :
  CUDA_HOME w_empty_override = CUDA_HOME (unset_CUDA_HOME w_empty_override) /\
  script w_empty_override = script (unset_CUDA_HOME w_empty_override) /\
  exists t,
    trace CUDA_HOME w_empty_override
      = EvEnvironGet "CUDA_HOME" :: EvWhich "cuda-gdb" :: t.
Proof.
  apply (empty_override_is_absent w_empty_override). reflexivity.
Defined.

(** C10.  The two failures of the locator, a toolkit that is not found
    and a toolkit path that is not a directory, are both [OSError]s:
    the exceptions have the same type and differ in their message. *)
Theorem failures_share_OSError (w1 w2 : World) (home : string) :
  py_not (os_environ w1 "CUDA_HOME") = true ->
  shutil_which w1 "cuda-gdb" = None ->
  outcome resolve_CUDA_HOME w2 = Return home ->
  os_path_isdir w2 home = false ->
  exists e1 e2,
    outcome CUDA_HOME w1 = Raise e1 /\
    outcome CUDA_HOME w2 = Raise e2 /\
    exc_type e1 = OSError /\
    exc_type e2 = OSError /\
    exc_msg e1 = not_found_msg /\
    exc_msg e2 = invalid_msg home /\
    exc_msg e1 <> exc_msg e2.
Proof.
  intros Hn Hw Hr Hd.
  exists ToolkitNotFound, (ToolkitPathInvalid home). repeat split.
  - unfold outcome.
    rewrite (CUDA_HOME_unresolved w1 ToolkitNotFound
               [EvEnvironGet "CUDA_HOME"; EvWhich "cuda-gdb"]); [reflexivity|].
    rewrite (resolve_probe w1 Hn), Hw. reflexivity.
  - unfold outcome in *. destruct (resolve_CUDA_HOME w2) as [o t] eqn:E.
    cbn [fst] in Hr. subst o.
    rewrite (CUDA_HOME_validate w2 home t E), Hd. reflexivity.
  - cbn. discriminate.
Qed.

Lemma failures_share_OSError_witness :
  exists e1 e2,
    outcome CUDA_HOME w_nothing = Raise e1 /\
    outcome CUDA_HOME w_missing = Raise e2 /\
    exc_type e1 = OSError /\
    exc_type e2 = OSError /\
    exc_msg e1 = not_found_msg /\
    exc_msg e2 = invalid_msg "/opt/cuda" /\
    exc_msg e1 <> exc_msg e2.
Proof.
  apply (failures_share_OSError w_nothing w_missing "/opt/cuda");
    reflexivity.
Defined.

(* ================================================================= *)
(** ** The script past the locator *)

(** Lines 33-75 after a returning locator, in one equation: the
    extension is assembled, [cythonize] is called on it, and only if
    that returns are [find_packages], [versioneer.get_cmdclass] and
    [setup] called, in this order. *)
Lemma script_after_locator (w : World) (home : string) (t : list Event) :
  CUDA_HOME w = (Return home, t) ->
  exists exts,
    outcome (extensions (cuda_include_dir home)) w = Return exts /\
    script w =
      match cythonize w exts with
      | inl e =>
          (Raise e,
           (t ++ [EvSysconfigGetPath "include"; EvGetPythonLib;
                  EvCythonize exts])%list)
      | inr mods =>
          (match setuptools_setup w (script_setup_args w mods) with
           | Some e => Raise e
           | None => Return tt
           end,
           (t ++ [EvSysconfigGetPath "include"; EvGetPythonLib;
                  EvCythonize exts; EvFindPackages ["rmm"; "rmm.*"];
                  EvGetCmdclass; EvSetup (script_setup_args w mods)])%list)
      end.
Proof.
  intros H. eexists. split.
  - unfold outcome. rewrite extensions_run. reflexivity.
  - unfold script, bind at 1. rewrite H.
    unfold bind at 1. rewrite extensions_run.
    unfold setup, bind, call, call_exc, script_setup_args.
    destruct (cythonize w _) as [e|mods]; [reflexivity|].
    destruct (setuptools_setup w _); reflexivity.
Qed.

Lemma no_backend_no_setup (l : list Event) (args : SetupArgs) :
  existsb is_backend_event l = false -> ~ In (EvSetup args) l.
Proof.
  induction l as [|ev l IH]; [intros _ []|].
  cbn [existsb]. intros H. apply orb_false_iff in H as [Hev Hl].
  intros [->|Hin]; [discriminate | exact (IH Hl Hin)].
Qed.

Lemma run_split {A} (m : M A) (w : World) (o : Outcome A) :
  outcome m w = o -> m w = (o, trace m w).
Proof.
  unfold outcome, trace. destruct (m w) as [o' t]. cbn. now intros ->.
Qed.

(** X1.  If the locator has returned and [cythonize] raises, the
    script raises that exception unchanged; [find_packages],
    [versioneer.get_cmdclass] and [setup] are never called, and the
    [cythonize] call is the last event of the run. *)
Theorem cythonize_failure_stops_setup
    (w : World) (home : string) (exts : list Extension) (e : PyExc) :
  outcome CUDA_HOME w = Return home ->
  outcome (extensions (cuda_include_dir home)) w = Return exts ->
  cythonize w exts = inl e ->
  script w =
    (Raise e,
     (trace CUDA_HOME w ++
      [EvSysconfigGetPath "include"; EvGetPythonLib; EvCythonize exts])%list) /\
  (forall args, ~ In (EvSetup args) (trace script w)) /\
  (forall inc, ~ In (EvFindPackages inc) (trace script w)) /\
  ~ In EvGetCmdclass (trace script w).
Proof.
  intros Hloc Hext Hcy.
  destruct (CUDA_HOME_returned w home Hloc) as (_ & t & Hrun & Hshape).
  destruct (script_after_locator w home _ Hrun) as (exts' & Hext' & Hs).
  rewrite Hext in Hext'. injection Hext' as <-.
  rewrite Hcy in Hs.
  assert (Ht : trace CUDA_HOME w = (t ++ [EvIsDir home])%list)
    by (unfold trace; now rewrite Hrun).
  rewrite Ht. split; [exact Hs|].
  unfold trace. rewrite Hs. cbn [snd].
  repeat split; intros; intros Hin;
    destruct Hshape as [-> | ->]; cbn [app In] in Hin;
    intuition discriminate.
Qed.

Lemma cythonize_failure_stops_setup_witness :
  exists exts,
    script w_cython_fails =
      (Raise pyx_error,
       (trace CUDA_HOME w_cython_fails ++
        [EvSysconfigGetPath "include"; EvGetPythonLib; EvCythonize exts])%list) /\
    (forall args, ~ In (EvSetup args) (trace script w_cython_fails)) /\
    (forall inc, ~ In (EvFindPackages inc) (trace script w_cython_fails)) /\
    ~ In EvGetCmdclass (trace script w_cython_fails).
Proof.
  eexists.
  apply (cythonize_failure_stops_setup w_cython_fails "/opt/cuda" _ pyx_error);
    reflexivity.
Defined.

(** X2.  The script ends normally exactly when all three stages do:
    the locator returns a toolkit home, [cythonize] returns for the
    extension built from it, and [setup] does not raise on the
    arguments built from the cythonized modules. *)
Theorem script_returns_iff (w : World) :
  outcome script w = Return tt <->
  exists home exts mods,
    outcome CUDA_HOME w = Return home /\
    outcome (extensions (cuda_include_dir home)) w = Return exts /\
    cythonize w exts = inr mods /\
    setuptools_setup w (script_setup_args w mods) = None.
Proof.
  split.
  - intros Hout.
    destruct (outcome CUDA_HOME w) as [home|e] eqn:Hloc.
    + destruct (script_after_locator w home _ (run_split _ _ _ Hloc))
        as (exts & Hext & Hs).
      unfold outcome in Hout. rewrite Hs in Hout.
      destruct (cythonize w exts) as [e|mods] eqn:Hcy; [discriminate|].
      cbn [fst] in Hout.
      destruct (setuptools_setup w (script_setup_args w mods)) eqn:Hst;
        [discriminate|].
      exists home, exts, mods. auto.
    + unfold outcome in Hout.
      rewrite (script_locator_failed w e _ (run_split _ _ _ Hloc)) in Hout.
      discriminate.
  - intros (home & exts & mods & Hloc & Hext & Hcy & Hst).
    destruct (script_after_locator w home _ (run_split _ _ _ Hloc))
      as (exts' & Hext' & Hs).
    rewrite Hext in Hext'. injection Hext' as <-.
    unfold outcome. rewrite Hs, Hcy. cbn [fst]. now rewrite Hst.
Qed.

(** X3.  [setup] is only ever called after [cythonize] has returned,
    with the modules [cythonize] returned as [ext_modules], the result
    of [find_packages] as [packages] and the literal
    [install_requires]; and it is the last call of the run. *)
Theorem setup_called_last_with_cythonized (w : World) (args : SetupArgs) :
  In (EvSetup args) (trace script w) ->
  exists home exts mods,
    outcome CUDA_HOME w = Return home /\
    outcome (extensions (cuda_include_dir home)) w = Return exts /\
    cythonize w exts = inr mods /\
    args = script_setup_args w mods /\
    ext_modules args = mods /\
    packages args = find_packages w ["rmm"; "rmm.*"] /\
    kw_install_requires args = ["numba"; "cython"] /\
    last (trace script w) EvGetCmdclass = EvSetup args.
Proof.
  intros Hin.
  destruct (outcome CUDA_HOME w) as [home|e] eqn:Hloc.
  - destruct (CUDA_HOME_returned w home Hloc) as (_ & t & Hrun & Hshape).
    destruct (script_after_locator w home _ Hrun) as (exts & Hext & Hs).
    unfold trace in *. rewrite Hs in *.
    destruct (cythonize w exts) as [e|mods] eqn:Hcy; cbn [snd] in *.
    + exfalso. destruct Hshape as [-> | ->]; cbn [app In] in Hin;
        intuition discriminate.
    + assert (Hargs : args = script_setup_args w mods).
      { destruct Hshape as [-> | ->]; cbn [app In] in Hin;
          intuition (try discriminate; congruence). }
      subst args. exists home, exts, mods.
      repeat split; try assumption.
      destruct Hshape as [-> | ->]; reflexivity.
  - exfalso.
    unfold trace in Hin.
    rewrite (script_locator_failed w e _ (run_split _ _ _ Hloc)) in Hin.
    exact (no_backend_no_setup _ args (CUDA_HOME_no_backend w) Hin).
Qed.

Lemma setup_called_last_with_cythonized_witness :
  exists home exts mods,
    outcome CUDA_HOME w_setup_fails = Return home /\
    outcome (extensions (cuda_include_dir home)) w_setup_fails = Return exts /\
    cythonize w_setup_fails exts = inr mods /\
    script_setup_args w_setup_fails sample_exts
      = script_setup_args w_setup_fails mods /\
    ext_modules (script_setup_args w_setup_fails sample_exts) = mods /\
    packages (script_setup_args w_setup_fails sample_exts)
      = find_packages w_setup_fails ["rmm"; "rmm.*"] /\
    kw_install_requires (script_setup_args w_setup_fails sample_exts)
      = ["numba"; "cython"] /\
    last (trace script w_setup_fails) EvGetCmdclass
      = EvSetup (script_setup_args w_setup_fails sample_exts).
Proof.
  apply (setup_called_last_with_cythonized w_setup_fails
           (script_setup_args w_setup_fails sample_exts)).
  vm_compute. do 7 right. left. reflexivity.
Defined.

(* ================================================================= *)
(** ** The locator, read backwards *)

(** The three ways lines 16-26 can go, with what the world must have
    answered. *)
Lemma locator_cases (w : World) :
  (exists s,
      os_environ w "CUDA_HOME" = Some s /\ s <> "" /\
      resolve_CUDA_HOME w = (Return s, [EvEnvironGet "CUDA_HOME"])) \/
  (py_not (os_environ w "CUDA_HOME") = true /\
   exists p,
     shutil_which w "cuda-gdb" = Some p /\
     resolve_CUDA_HOME w =
       (Return (Py.dirname (Py.dirname p)),
        [EvEnvironGet "CUDA_HOME"; EvWhich "cuda-gdb"])) \/
  (py_not (os_environ w "CUDA_HOME") = true /\
   shutil_which w "cuda-gdb" = None /\
   resolve_CUDA_HOME w =
     (Raise ToolkitNotFound, [EvEnvironGet "CUDA_HOME"; EvWhich "cuda-gdb"])).
Proof.
  destruct (py_not (os_environ w "CUDA_HOME")) eqn:Hn.
  - right. rewrite (resolve_probe w Hn).
    destruct (shutil_which w "cuda-gdb") as [p|]; [left | right]; eauto.
  - left. destruct (os_environ w "CUDA_HOME") as [s|] eqn:He; [|discriminate].
    assert (Hs : s <> "") by (intros ->; discriminate).
    exists s. auto using resolve_override.
Qed.

Lemma py_not_some (s : string) : py_not (Some s) = true -> s = "".
Proof.
  unfold py_not, Py.truthy. destruct (String.eqb_spec s ""); [auto|discriminate].
Qed.

Lemma not_found_msg_neq (home : string) : not_found_msg <> invalid_msg home.
Proof. cbn. discriminate. Qed.

Lemma Raise_msg {A} (e1 e2 : PyExc) :
  @Raise A e1 = Raise e2 -> exc_msg e1 = exc_msg e2.
Proof. intros H. injection H as ->. reflexivity. Qed.

Lemma append_inj_l (pre a b : string) : pre ++ a = pre ++ b -> a = b.
Proof.
  induction pre as [|c pre IH]; cbn [append]; [auto|].
  intros E. injection E as E. auto.
Qed.

(** X4.  A non-empty [CUDA_HOME] is never second-guessed: if it does
    not name a directory the locator fails with that value in the
    error, without looking for [cuda-gdb], whatever the search path
    holds; and the script stops there. *)
Theorem invalid_override_no_fallback (w : World) (s : string) :
  os_environ w "CUDA_HOME" = Some s ->
  s <> "" ->
  os_path_isdir w s = false ->
  CUDA_HOME w =
    (Raise (ToolkitPathInvalid s), [EvEnvironGet "CUDA_HOME"; EvIsDir s]) /\
  script w =
    (Raise (ToolkitPathInvalid s), [EvEnvironGet "CUDA_HOME"; EvIsDir s]).
Proof.
  intros He Hs Hd.
  assert (Hrun : CUDA_HOME w =
            (Raise (ToolkitPathInvalid s),
             [EvEnvironGet "CUDA_HOME"; EvIsDir s])).
  { rewrite (CUDA_HOME_validate w s _ (resolve_override w s He Hs)), Hd.
    reflexivity. }
  split; [exact Hrun | apply script_locator_failed, Hrun].
Qed.

Lemma invalid_override_no_fallback_witness :
  shutil_which w_bad_override "cuda-gdb" = Some "/usr/local/cuda/bin/cuda-gdb" /\
  os_path_isdir w_bad_override "/usr/local/cuda" = true /\
  CUDA_HOME w_bad_override =
    (Raise (ToolkitPathInvalid "/opt/cuda"),
     [EvEnvironGet "CUDA_HOME"; EvIsDir "/opt/cuda"]) /\
  script w_bad_override =
    (Raise (ToolkitPathInvalid "/opt/cuda"),
     [EvEnvironGet "CUDA_HOME"; EvIsDir "/opt/cuda"]).
Proof.
  split; [reflexivity|]. split; [reflexivity|].
  apply (invalid_override_no_fallback w_bad_override "/opt/cuda");
    [reflexivity | discriminate | reflexivity].
Defined.

(** Where a returned toolkit home comes from. *)
Lemma CUDA_HOME_return_inv (w : World) (home : string) :
  outcome CUDA_HOME w = Return home ->
  os_path_isdir w home = true /\
  ((os_environ w "CUDA_HOME" = Some home /\ home <> "") \/
   (py_not (os_environ w "CUDA_HOME") = true /\
    exists p, shutil_which w "cuda-gdb" = Some p /\
              home = Py.dirname (Py.dirname p))).
Proof.
  unfold outcome. intros Hout.
  destruct (locator_cases w) as [(s & He & Hs & Hr)|[(Hn & p & Hw & Hr)|(Hn & Hw & Hr)]].
  - rewrite (CUDA_HOME_validate w s _ Hr) in Hout. cbn [fst] in Hout.
    destruct (os_path_isdir w s) eqn:Hd; [|discriminate].
    injection Hout as <-. auto.
  - rewrite (CUDA_HOME_validate w _ _ Hr) in Hout. cbn [fst] in Hout.
    destruct (os_path_isdir w (Py.dirname (Py.dirname p))) eqn:Hd;
      [|discriminate].
    injection Hout as <-. split; [exact Hd|]. right. eauto.
  - rewrite (CUDA_HOME_unresolved w _ _ Hr) in Hout. discriminate.
Qed.

(** X5.  The locator returns [home] exactly when [home] is an existing
    directory and is either the non-empty value of [CUDA_HOME] or,
    with [CUDA_HOME] absent or empty, the grandparent of the path
    [shutil.which] gave for [cuda-gdb]. *)
Theorem CUDA_HOME_returns_iff (w : World) (home : string) :
  outcome CUDA_HOME w = Return home <->
  os_path_isdir w home = true /\
  ((os_environ w "CUDA_HOME" = Some home /\ home <> "") \/
   (py_not (os_environ w "CUDA_HOME") = true /\
    exists p, shutil_which w "cuda-gdb" = Some p /\
              home = Py.dirname (Py.dirname p))).
Proof.
  split; [apply CUDA_HOME_return_inv|].
  unfold outcome.
  - intros [Hd [[He Hs]|(Hn & p & Hw & ->)]].
    + rewrite (CUDA_HOME_validate w home _ (resolve_override w home He Hs)), Hd.
      reflexivity.
    + assert (Hr : resolve_CUDA_HOME w =
                (Return (Py.dirname (Py.dirname p)),
                 [EvEnvironGet "CUDA_HOME"; EvWhich "cuda-gdb"]))
        by (rewrite (resolve_probe w Hn), Hw; reflexivity).
      rewrite (CUDA_HOME_validate w _ _ Hr), Hd. reflexivity.
Qed.

(** X6.  The locator raises the not-found error exactly when
    [CUDA_HOME] is absent or empty and [cuda-gdb] is not on the search
    path; and whenever it raises it, the only calls made are the
    environment lookup and the search-path probe: the file system has
    not been asked anything. *)
Theorem CUDA_HOME_not_found_iff (w : World) :
  (outcome CUDA_HOME w = Raise ToolkitNotFound <->
   py_not (os_environ w "CUDA_HOME") = true /\
   shutil_which w "cuda-gdb" = None) /\
  (outcome CUDA_HOME w = Raise ToolkitNotFound ->
   trace CUDA_HOME w = [EvEnvironGet "CUDA_HOME"; EvWhich "cuda-gdb"]).
Proof.
  assert (Hfwd : outcome CUDA_HOME w = Raise ToolkitNotFound ->
                 py_not (os_environ w "CUDA_HOME") = true /\
                 shutil_which w "cuda-gdb" = None /\
                 trace CUDA_HOME w
                   = [EvEnvironGet "CUDA_HOME"; EvWhich "cuda-gdb"]).
  { unfold outcome, trace. intros Hout.
    destruct (locator_cases w) as [(s & He & Hs & Hr)|[(Hn & p & Hw & Hr)|(Hn & Hw & Hr)]].
    1,2: rewrite (CUDA_HOME_validate w _ _ Hr) in Hout; cbn [fst] in Hout;
         destruct (os_path_isdir w _); [discriminate|];
         apply Raise_msg in Hout; symmetry in Hout;
         elim (not_found_msg_neq _ Hout).
    rewrite (CUDA_HOME_unresolved w _ _ Hr). auto. }
  split; [split|].
  - intros Hout. destruct (Hfwd Hout) as (Hn & Hw & _). auto.
  - intros (Hn & Hw). unfold outcome.
    rewrite (CUDA_HOME_unresolved w ToolkitNotFound
               [EvEnvironGet "CUDA_HOME"; EvWhich "cuda-gdb"]); [reflexivity|].
    rewrite (resolve_probe w Hn), Hw. reflexivity.
  - intros Hout. apply (Hfwd Hout).
Qed.

Lemma CUDA_HOME_not_found_iff_witness :
  outcome CUDA_HOME w_empty_nothing = Raise ToolkitNotFound /\
  trace CUDA_HOME w_empty_nothing
    = [EvEnvironGet "CUDA_HOME"; EvWhich "cuda-gdb"].
Proof.
  destruct (CUDA_HOME_not_found_iff w_empty_nothing) as [[_ Hif] Htrace].
  assert (Hout : outcome CUDA_HOME w_empty_nothing = Raise ToolkitNotFound)
    by (apply Hif; split; reflexivity).
  split; [exact Hout | exact (Htrace Hout)].
Defined.

(** X7.  The text of the invalid-path error tells the caller which
    path was rejected: if the locator fails with the message written
    for [home], then [home] is the path that was resolved, it was
    checked, and the check came out false. *)
Theorem invalid_msg_identifies_path (w : World) (e : PyExc) (home : string) :
  outcome CUDA_HOME w = Raise e ->
  exc_msg e = invalid_msg home ->
  e = ToolkitPathInvalid home /\
  os_path_isdir w home = false /\
  (exists t, resolve_CUDA_HOME w = (Return home, t) /\
             trace CUDA_HOME w = (t ++ [EvIsDir home])%list).
Proof.
  unfold outcome, trace. intros Hout Hmsg.
  destruct (locator_cases w) as [(s & He & Hs & Hr)|[(Hn & p & Hw & Hr)|(Hn & Hw & Hr)]].
  1,2: rewrite (CUDA_HOME_validate w _ _ Hr) in *; cbn [fst snd] in *;
       match type of Hr with _ = (Return ?h, _) =>
         destruct (os_path_isdir w h) eqn:Hd; [discriminate|];
         injection Hout as <-; cbn [exc_msg ToolkitPathInvalid] in Hmsg;
         apply append_inj_l in Hmsg; subst home; eauto
       end.
  rewrite (CUDA_HOME_unresolved w _ _ Hr) in Hout. cbn [fst] in Hout.
  injection Hout as <-. elim (not_found_msg_neq home Hmsg).
Qed.

Lemma invalid_msg_identifies_path_witness :
  ToolkitPathInvalid "/opt/cuda" = ToolkitPathInvalid "/opt/cuda" /\
  os_path_isdir w_missing "/opt/cuda" = false /\
  (exists t, resolve_CUDA_HOME w_missing = (Return "/opt/cuda", t) /\
             trace CUDA_HOME w_missing = (t ++ [EvIsDir "/opt/cuda"])%list).
Proof.
  apply (invalid_msg_identifies_path w_missing
           (ToolkitPathInvalid "/opt/cuda") "/opt/cuda"); reflexivity.
Defined.

(* ================================================================= *)
(** ** Paths the locator derives *)

Section PathFacts.

Variable c : ascii.

Lemma rfind_none_endswith (s : string) :
  Py.rfind c s = (-1)%Z -> Py.endswith s c = false.
Proof.
  induction s as [|a s IH]; [reflexivity|].
  cbn [Py.rfind]. destruct (0 <=? Py.rfind c s)%Z eqn:E.
  - apply Z.leb_le in E. lia.
  - destruct (Ascii.eqb a c) eqn:Ea; [discriminate|]. intros _.
    destruct s as [|b s]; [exact Ea|].
    rewrite endswith_cons by discriminate. apply IH.
    revert E. cbn [Py.rfind].
    destruct (0 <=? Py.rfind c s)%Z eqn:E'.
    + apply Z.leb_le in E'. intros E. apply Z.leb_gt in E. lia.
    + destruct (Ascii.eqb b c); [discriminate | reflexivity].
Qed.

(** What [rstrip] leaves does not end in the stripped character. *)
Lemma rstrip_endswith (s : string) : Py.endswith (Py.rstrip c s) c = false.
Proof.
  induction s as [|a s IH]; [reflexivity|].
  cbn [Py.rstrip]. destruct (Py.rstrip c s) as [|b r] eqn:E.
  - destruct (Ascii.eqb a c) eqn:Ea; [reflexivity | exact Ea].
  - rewrite endswith_cons by discriminate. exact IH.
Qed.

(** [rstrip] only takes characters off the end. *)
Lemma rstrip_prefix (s : string) : exists r, s = Py.rstrip c s ++ r.
Proof.
  induction s as [|a s [r IH]]; [now exists ""|].
  cbn [Py.rstrip]. destruct (Py.rstrip c s) as [|b r'] eqn:E.
  - destruct (Ascii.eqb a c).
    + now exists (String a s).
    + exists r. cbn in *. now rewrite <- IH.
  - exists r. cbn [append] in *. now rewrite <- IH.
Qed.

Lemma substring_prefix (n : nat) (s : string) :
  exists r, s = substring 0 n s ++ r.
Proof.
  revert s. induction n as [|n IH]; intros s.
  - exists s. now destruct s.
  - destruct s as [|a s]; [now exists ""|].
    destruct (IH s) as [r Hr]. exists r. cbn. now rewrite <- Hr.
Qed.

End PathFacts.

Lemma dirname_prefix (p : string) : exists r, p = Py.dirname p ++ r.
Proof.
  unfold Py.dirname.
  destruct (substring_prefix (Z.to_nat (Py.rfind Py.sep p + 1)) p) as [r Hr].
  set (head := substring 0 (Z.to_nat (Py.rfind Py.sep p + 1)) p) in *.
  destruct (Py.truthy head &&
            negb (head =? Py.repeat_char Py.sep (String.length head))).
  - destruct (rstrip_prefix Py.sep head) as [r' Hr'].
    exists (r' ++ r). rewrite <- append_assoc, <- Hr'. exact Hr.
  - exists r. exact Hr.
Qed.

(** A path without separator has no parent: [dirname] gives the empty
    string. *)
Lemma dirname_no_sep (d : string) :
  Py.rfind Py.sep d = (-1)%Z -> Py.dirname d = "".
Proof.
  intros H. unfold Py.dirname. rewrite H. cbn. now destruct d.
Qed.

(** [dirname] gives a path in normal form: one that does not end in a
    separator, unless it is made of separators only (or empty). *)
Lemma dirname_normal (p : string) :
  Py.endswith (Py.dirname p) Py.sep = false \/
  Py.dirname p = Py.repeat_char Py.sep (String.length (Py.dirname p)).
Proof.
  unfold Py.dirname.
  set (head := substring 0 (Z.to_nat (Py.rfind Py.sep p + 1)) p).
  destruct (Py.truthy head) eqn:Ht; cbn [andb].
  - destruct (String.eqb_spec head
                (Py.repeat_char Py.sep (String.length head))) as [E|E];
      cbn [negb].
    + right. exact E.
    + left. apply rstrip_endswith.
  - right. unfold Py.truthy in Ht. apply negb_false_iff in Ht.
    apply String.eqb_eq in Ht. now rewrite Ht.
Qed.

(** X8.  A [cuda-gdb] found through a relative search-path entry of
    one component (as in [bin/cuda-gdb] or [./cuda-gdb]) has no
    grandparent: the derived toolkit home is the empty string, and as
    the empty path is no directory the locator fails with the
    invalid-path error for it. *)
Theorem relative_cuda_gdb_rejected (w : World) (d tool : string) :
  py_not (os_environ w "CUDA_HOME") = true ->
  shutil_which w "cuda-gdb" = Some (d ++ String Py.sep tool) ->
  d <> "" ->
  Py.rfind Py.sep d = (-1)%Z ->
  Py.rfind Py.sep tool = (-1)%Z ->
  os_path_isdir w "" = false ->
  CUDA_HOME w =
    (Raise (ToolkitPathInvalid ""),
     [EvEnvironGet "CUDA_HOME"; EvWhich "cuda-gdb"; EvIsDir ""]) /\
  exc_msg (ToolkitPathInvalid "")
    = "Invalid CUDA_HOME: directory does not exist: ".
Proof.
  intros Hn Hw Hd Hsep Htool Hdir.
  assert (Hgp : Py.dirname (Py.dirname (d ++ String Py.sep tool)) = "").
  { rewrite dirname_app by auto using rfind_none_endswith.
    apply dirname_no_sep, Hsep. }
  assert (Hr : resolve_CUDA_HOME w =
            (Return "", [EvEnvironGet "CUDA_HOME"; EvWhich "cuda-gdb"]))
    by (rewrite (resolve_probe w Hn), Hw, Hgp; reflexivity).
  rewrite (CUDA_HOME_validate w "" _ Hr), Hdir. split; reflexivity.
Qed.

Lemma relative_cuda_gdb_rejected_witness :
  CUDA_HOME w_relative_bin =
    (Raise (ToolkitPathInvalid ""),
     [EvEnvironGet "CUDA_HOME"; EvWhich "cuda-gdb"; EvIsDir ""]) /\
  exc_msg (ToolkitPathInvalid "")
    = "Invalid CUDA_HOME: directory does not exist: ".
Proof.
  apply (relative_cuda_gdb_rejected w_relative_bin "bin" "cuda-gdb");
    [reflexivity | reflexivity | discriminate | reflexivity | reflexivity
    | reflexivity].
Defined.

(** X9.  A toolkit home derived from [cuda-gdb] is a leading part of
    the path [shutil.which] returned, and is in normal form: it does
    not end in a separator unless it consists of separators only. *)
Theorem derived_home_is_prefix (w : World) (p home : string) :
  py_not (os_environ w "CUDA_HOME") = true ->
  shutil_which w "cuda-gdb" = Some p ->
  outcome CUDA_HOME w = Return home ->
  prefix home p = true /\
  (Py.endswith home Py.sep = false \/
   home = Py.repeat_char Py.sep (String.length home)).
Proof.
  intros Hn Hw Hout.
  apply CUDA_HOME_return_inv in Hout as [_ [[He Hs]|(_ & p' & Hw' & ->)]].
  - rewrite He in Hn. apply py_not_some in Hn. contradiction.
  - rewrite Hw in Hw'. injection Hw' as <-. split.
    + destruct (dirname_prefix p) as [r1 H1].
      destruct (dirname_prefix (Py.dirname p)) as [r2 H2].
      rewrite H1 at 2. rewrite H2 at 2. rewrite append_assoc.
      apply prefix_app.
    + apply dirname_normal.
Qed.

Lemma derived_home_is_prefix_witness :
  prefix "/usr/local/cuda" "/usr/local/cuda/bin/cuda-gdb" = true /\
  (Py.endswith "/usr/local/cuda" Py.sep = false \/
   "/usr/local/cuda" = Py.repeat_char Py.sep (String.length "/usr/local/cuda")).
Proof.
  apply (derived_home_is_prefix w_gdb "/usr/local/cuda/bin/cuda-gdb"
           "/usr/local/cuda"); reflexivity.
Defined.

(** X10.  For a toolkit home written without a trailing separator the
    include directory is [home/include], and its parent directory is
    the toolkit home again. *)
Theorem include_dir_parent (home : string) :
  home <> "" ->
  Py.endswith home Py.sep = false ->
  cuda_include_dir home = home ++ "/include" /\
  Py.dirname (cuda_include_dir home) = home.
Proof.
  intros Hne Hend.
  assert (Hj : cuda_include_dir home = home ++ String Py.sep "include").
  { unfold cuda_include_dir, Py.join. cbn [Py.startswith Py.sep Ascii.eqb Bool.eqb].
    replace (Py.truthy home) with true by (destruct home; [congruence|reflexivity]).
    fold Py.sep. rewrite Hend. reflexivity. }
  split; [exact Hj|]. rewrite Hj. apply dirname_app; auto.
Qed.

Lemma include_dir_parent_witness :
  cuda_include_dir "/opt/cuda" = "/opt/cuda" ++ "/include" /\
  Py.dirname (cuda_include_dir "/opt/cuda") = "/opt/cuda".
Proof.
  apply (include_dir_parent "/opt/cuda"); [discriminate | reflexivity].
Defined.

(** X11.  The locator looks at nothing but the value of [CUDA_HOME],
    the place of [cuda-gdb] and the directories on disk: two worlds
    that agree on these give the same result and the same trace,
    whatever else is in the environment or on the search path. *)
Theorem CUDA_HOME_frame (w1 w2 : World) :
  os_environ w1 "CUDA_HOME" = os_environ w2 "CUDA_HOME" ->
  shutil_which w1 "cuda-gdb" = shutil_which w2 "cuda-gdb" ->
  (forall p, os_path_isdir w1 p = os_path_isdir w2 p) ->
  CUDA_HOME w1 = CUDA_HOME w2.
Proof.
  intros He Hw Hd.
  destruct (locator_cases w2)
    as [(s & He2 & Hs & Hr)|[(Hn & p & Hw2 & Hr)|(Hn & Hw2 & Hr)]].
  - rewrite (CUDA_HOME_validate w2 s _ Hr).
    rewrite He2 in He.
    rewrite (CUDA_HOME_validate w1 s _ (resolve_override w1 s He Hs)), Hd.
    reflexivity.
  - rewrite (CUDA_HOME_validate w2 _ _ Hr).
    rewrite <- He in Hn. rewrite Hw2 in Hw.
    assert (Hr1 : resolve_CUDA_HOME w1 =
              (Return (Py.dirname (Py.dirname p)),
               [EvEnvironGet "CUDA_HOME"; EvWhich "cuda-gdb"]))
      by (rewrite (resolve_probe w1 Hn), Hw; reflexivity).
    rewrite (CUDA_HOME_validate w1 _ _ Hr1), Hd. reflexivity.
  - rewrite (CUDA_HOME_unresolved w2 _ _ Hr).
    rewrite <- He in Hn. rewrite Hw2 in Hw.
    apply CUDA_HOME_unresolved.
    rewrite (resolve_probe w1 Hn), Hw. reflexivity.
Qed.

Lemma CUDA_HOME_frame_witness : CUDA_HOME w_gdb_busy = CUDA_HOME w_gdb.
Proof.
  apply (CUDA_HOME_frame w_gdb_busy w_gdb);
    [reflexivity | reflexivity | intros p; reflexivity].
Defined.

(* ================================================================= *)
(** ** When Cython is reached *)

(** X12.  [cythonize] is called exactly when the locator has returned,
    and then on the extension list assembled from the returned toolkit
    home and on nothing else. *)
Theorem cythonize_called_iff (w : World) (exts : list Extension) :
  In (EvCythonize exts) (trace script w) <->
  exists home,
    outcome CUDA_HOME w = Return home /\
    outcome (extensions (cuda_include_dir home)) w = Return exts.
Proof.
  split.
  - intros Hin. destruct (outcome CUDA_HOME w) as [home|e] eqn:Hloc.
    + exists home. split; [reflexivity|].
      destruct (CUDA_HOME_returned w home Hloc) as (_ & t & Hrun & Hshape).
      destruct (script_after_locator w home _ Hrun) as (exts' & Hext & Hs).
      rewrite Hext. f_equal.
      unfold trace in Hin. rewrite Hs in Hin.
      destruct (cythonize w exts'); cbn [snd] in Hin;
        destruct Hshape as [-> | ->]; cbn [app In] in Hin;
        intuition (try discriminate; congruence).
    + exfalso. unfold trace in Hin.
      rewrite (script_locator_failed w e _ (run_split _ _ _ Hloc)) in Hin.
      pose proof (CUDA_HOME_no_backend w) as Hnb. fold (trace CUDA_HOME w) in Hin.
      revert Hin Hnb. generalize (trace CUDA_HOME w) as l.
      induction l as [|ev l IH]; [intros []|].
      cbn [existsb]. intros [->|Hin] Hnb; [discriminate|].
      apply orb_false_iff in Hnb as [_ Hl]. exact (IH Hin Hl).
  - intros (home & Hloc & Hext).
    destruct (CUDA_HOME_returned w home Hloc) as (_ & t & Hrun & _).
    destruct (script_after_locator w home _ Hrun) as (exts' & Hext' & Hs).
    rewrite Hext in Hext'. injection Hext' as <-.
    unfold trace. rewrite Hs.
    destruct (cythonize w exts); cbn [snd]; apply in_or_app; right;
      cbn [In]; auto.
Qed.
